(** * Post-training quantization facade (PyTorch)

    A shallow embedding of
    [model_compression_toolkit/ptq/pytorch/quantization_facade.py]:
    the public entry point [pytorch_post_training_quantization], the
    module-level code that selects between the real entry point and the
    stub used when torch is absent, and the contracts of the stages the
    entry point wires together. *)

From Stdlib Require Import NArith Lia.
From stdpp Require Import base option list strings.

(** ** Exceptions and results *)

(** Python exceptions that matter to the facade.  [Critical] is what
    [Logger.critical] raises: the source says of its torch-less stub
    "we raise an exception when trying to use these functions" and the
    stub's body is a single [Logger.critical] call. *)
Inductive Exn :=
| Critical (msg : string)
| ImportError (module_name : string)
| InfeasibleBudget
| PyException (name : string).

Inductive Result (A : Type) :=
| Ok (a : A)
| Raise (x : Exn).
Arguments Ok {A} a.
Arguments Raise {A} x.

(** ** Mixed-precision bit-width search *)

(** Modelled from the spec: the data the bit-width search works on
    (ResourceUtilization, BitwidthConfiguration, the candidate precision
    configurations of a node) belong to the core of the toolkit, which
    this file's source only calls. *)
Module MixedPrecision.

(** One precision configuration a node may take, with the resource cost
    and the sensitivity estimate the search works on. *)
Record Candidate := {
  bitwidth : N;
  cost : N;
  sensitivity : N
}.

Record NodeCandidates := {
  nc_name : string;
  candidates : list Candidate
}.

(** ResourceUtilization: the caller's budget. *)
Record ResourceUtilization := { max_utilization : N }.

(** BitwidthConfiguration: the candidate chosen for each node, in graph
    order. *)
Definition BitwidthConfiguration := list Candidate.

Definition total_cost (cfg : BitwidthConfiguration) : N :=
  foldr (fun c acc => (cost c + acc)%N) 0%N cfg.

Definition total_sensitivity (cfg : BitwidthConfiguration) : N :=
  foldr (fun c acc => (sensitivity c + acc)%N) 0%N cfg.

(** A configuration assigns to every node exactly one of its own
    candidates. *)
Definition valid_for (nodes : list NodeCandidates)
    (cfg : BitwidthConfiguration) : Prop :=
  Forall2 (fun n c => In c (candidates n)) nodes cfg.

Fixpoint all_configurations (nodes : list NodeCandidates)
    : list BitwidthConfiguration :=
  match nodes with
  | [] => [[]]
  | n :: rest =>
      flat_map (fun c => map (cons c) (all_configurations rest))
               (candidates n)
  end.

Definition within_budget (budget : N) (cfg : BitwidthConfiguration) : bool :=
  (total_cost cfg <=? budget)%N.

(** Keeps the incumbent unless the challenger is strictly less
    sensitive, so that the first of several equally good
    configurations wins. *)
Definition less_sensitive (best c : BitwidthConfiguration)
    : BitwidthConfiguration :=
  if (total_sensitivity c <? total_sensitivity best)%N then c else best.

(** Modelled from the spec: the Mixed-Precision Bitwidth Search of the
    core runner (not part of this file's source).  The spec asks for one
    precision configuration per quantizable node, total resource cost
    within the budget, least aggregate sensitivity, a deterministic
    answer, and an explicit infeasibility error when no configuration
    fits.  The strategy is left open there; this one enumerates. *)
Definition search (budget : N) (nodes : list NodeCandidates)
    : Result BitwidthConfiguration :=
  match List.filter (within_budget budget) (all_configurations nodes) with
  | [] => Raise InfeasibleBudget
  | c :: cs => Ok (fold_left less_sensitive cs c)
  end.

(** Modelled from the spec: with mixed precision disabled no search is
    performed and every node takes its single configured (first)
    candidate. *)
Definition fixed_configuration (nodes : list NodeCandidates)
    : BitwidthConfiguration :=
  flat_map (fun n => firstn 1 (candidates n)) nodes.

End MixedPrecision.

(** ** Objects of the host framework and of the toolkit

    The facade only passes these around; their representation is left
    open.  [quantize_values] is the numeric kernel that maps stored
    floating-point values onto the grid given by quantization
    parameters. *)
Class Host := {
  TorchModule : Type;
  DataGen : Type;
  TensorboardWriter : Type;
  FwImpl : Type;
  Attacher : Type;
  OpsetToLayer : Type;
  MPSettings : Type;
  HessianService : Type;
  SchedulingInfo : Type;
  UserInformation : Type;
  Metadata : Type;
  TpcBody : Type;
  Weights : Type;
  QParams : Type;
  quantize_values : QParams -> Weights -> Weights
}.

Inductive FrameworkInfo := PyTorchInfo | KerasInfo.

(** Graphs are Python objects: a variable holds a reference, and a callee
    may change the graph behind it.  A reference is a position in the
    store of graphs. *)
Abbreviation GraphRef := nat (only parsing).

Section Model.
Context `{Host}.

(** *** Configuration objects *)

Record DebugConfig := {
  bypass : bool;
  analyze_similarity : bool
}.

Record QuantizationConfig := {
  custom_tpc_opset_to_layer : OpsetToLayer
}.

(** The value stored in [core_config.mixed_precision_config], seen
    through [isinstance(_, MixedPrecisionQuantizationConfig)]. *)
Inductive MPConfigObject :=
| MPQuantizationConfig (settings : MPSettings)
| OtherObject (type_name : string).

Definition isinstance_MixedPrecisionQuantizationConfig
    (o : MPConfigObject) : bool :=
  match o with
  | MPQuantizationConfig _ => true
  | OtherObject _ => false
  end.

Record CoreConfig := {
  debug_config : DebugConfig;
  is_mixed_precision_enabled : bool;
  mixed_precision_config : MPConfigObject;
  quantization_config : QuantizationConfig
}.

(** *** Target platform capabilities *)

Record TargetPlatformCapabilities := {
  add_metadata : bool;
  tpc_body : TpcBody
}.

(** [Union[TargetPlatformCapabilities, str]] *)
Inductive TpcArgument :=
| TpcObject (t : TargetPlatformCapabilities)
| TpcPath (path : string).

Record FrameworkQuantizationCapabilities := {
  tpc : TargetPlatformCapabilities;
  attached_with : OpsetToLayer
}.

(** *** Graphs and the object store *)

Record Node := {
  node_name : string;
  weights : Weights;
  qparams : option QParams
}.

Record Graph := {
  nodes : list Node;
  edges : list (string * string)
}.

(** What the world outside the facade looks like: the graphs that
    exist, how many batches have been drawn from representative data
    generators so far, and the framework info registered globally. *)
Record Ext := {
  heap : list Graph;
  batches_consumed : nat;
  fw_info : option FrameworkInfo
}.

(** *** Calls and traces *)

Inductive Call :=
| CSetFwInfo
| CLoggerCritical (msg : string)
| CInitTensorboardWriter
| CPytorchImplementation
| CLoadTargetPlatformCapabilities (arg : TpcArgument)
| CAttachTpcToPytorch
| CAttach (t : TargetPlatformCapabilities)
| CCoreRunner (budget : option MixedPrecision.ResourceUtilization)
| CDeepcopy (src : GraphRef)
| CPtqRunner (tg : GraphRef)
| CQuantizeGraphWeights (g : GraphRef)
| CAnalyzer (baseline quantized : GraphRef)
            (baseline_graph quantized_graph : option Graph)
| CExporter (g : GraphRef) (graph : option Graph)
| CCreateModelMetadata
| CAddMetadata (m : TorchModule) (md : Metadata).

(** What a call that returned gave back, as far as later statements
    need it. *)
Inductive Returned :=
| RNone
| RTpc (t : TargetPlatformCapabilities)
| RGraph (r : GraphRef) (graph : option Graph)
| RCore (tg : GraphRef) (graph : option Graph)
        (bit_widths_config : MixedPrecision.BitwidthConfiguration)
| RExport (m : TorchModule) (user_info : option UserInformation)
| RModule (m : TorchModule).

Inductive Outcome :=
| Returns (r : Returned)
| Raises (x : Exn).

Definition Event : Type := Call * Outcome.

(** The pipeline stages of the control-flow contract. *)
Inductive Stage := CoreRunner | PtqRunner | SimilarityAnalyzer | Exporter.

Definition stage_of (c : Call) : option Stage :=
  match c with
  | CCoreRunner _ => Some CoreRunner
  | CPtqRunner _ => Some PtqRunner
  | CAnalyzer _ _ _ _ => Some SimilarityAnalyzer
  | CExporter _ _ => Some Exporter
  | _ => None
  end.

Definition stages (t : list Event) : list Stage :=
  omap (fun ev => stage_of (fst ev)) t.

Definition Stage_eqb (a b : Stage) : bool :=
  match a, b with
  | CoreRunner, CoreRunner | PtqRunner, PtqRunner
  | SimilarityAnalyzer, SimilarityAnalyzer | Exporter, Exporter => true
  | _, _ => false
  end.

Definition invocations (s : Stage) (t : list Event) : nat :=
  length (List.filter (Stage_eqb s) (stages t)).

(** *** Running code against the outside world *)

Record Run (A : Type) := {
  result : Result A;
  final : Ext;
  trace : list Event
}.
Arguments result {A} r.
Arguments final {A} r.
Arguments trace {A} r.

Definition M (A : Type) : Type := Ext -> Run A.

Definition ret {A} (a : A) : M A :=
  fun e => {| result := Ok a; final := e; trace := [] |}.

Definition bind {A B} (m : M A) (k : A -> M B) : M B :=
  fun e =>
    match m e with
    | {| result := Ok a; final := e1; trace := t1 |} =>
        match k a e1 with
        | {| result := r; final := e2; trace := t2 |} =>
            {| result := r; final := e2; trace := t1 ++ t2 |}
        end
    | {| result := Raise x; final := e1; trace := t1 |} =>
        {| result := Raise x; final := e1; trace := t1 |}
    end.

(** A callee outside the facade: it may change the outside world and
    either returns or raises. *)
Definition External (A : Type) : Type := Ext -> Result A * Ext.

Definition invoke {A} (c : Call) (summary : A -> Ext -> Returned)
    (f : External A) : M A :=
  fun e =>
    let '(r, e') := f e in
    {| result := r;
       final := e';
       trace := [(c, match r with
                     | Ok a => Returns (summary a e')
                     | Raise x => Raises x
                     end)] |}.

End Model.

Arguments result {_ A} r.
Arguments final {_ A} r.
Arguments trace {_ A} r.

Notation "'let!' x ':=' m 'in' k" := (bind m (fun x => k))
  (at level 10, x name, m at level 100, k at level 200).

(** ** The facade *)

Section Facade.
Context `{Host}.

(** *** Callees

    Everything the facade calls lives in other modules of the toolkit
    or in the host framework.  Each callee may change the outside world
    and may raise.  [mctq_add_metadata] is [add_metadata] of
    [mct_quantizers.pytorch.metadata]; the plain name is taken by the
    capability spec's flag. *)
Record Services := {
  init_tensorboard_writer : External TensorboardWriter;
  PytorchImplementation : External FwImpl;
  load_target_platform_capabilities :
    TpcArgument -> External TargetPlatformCapabilities;
  AttachTpcToPytorch : External Attacher;
  attach :
    Attacher -> TargetPlatformCapabilities -> OpsetToLayer ->
    External FrameworkQuantizationCapabilities;
  core_runner :
    TorchModule -> DataGen -> CoreConfig -> FwImpl ->
    FrameworkQuantizationCapabilities ->
    option MixedPrecision.ResourceUtilization -> TensorboardWriter ->
    External (GraphRef * MixedPrecision.BitwidthConfiguration *
              HessianService * SchedulingInfo);
  ptq_runner :
    GraphRef -> DataGen -> CoreConfig -> FwImpl -> TensorboardWriter ->
    External GraphRef;
  quantize_graph_weights : GraphRef -> External GraphRef;
  analyzer_model_quantization :
    DataGen -> TensorboardWriter -> GraphRef -> GraphRef -> FwImpl ->
    External unit;
  get_exportable_pytorch_model :
    GraphRef -> External (TorchModule * option UserInformation);
  create_model_metadata :
    FrameworkQuantizationCapabilities -> SchedulingInfo ->
    External Metadata;
  mctq_add_metadata : TorchModule -> Metadata -> External TorchModule
}.

Variable svc : Services.

Definition no_summary {A} : A -> Ext -> Returned := fun _ _ => RNone.

(** Modelled from the spec: [Logger.critical] (the toolkit's logger, not
    in this file) reports a fatal error: the message is logged and the
    run is aborted by an exception.  The source says as much where it
    uses it for the torch-less stub: "we raise an exception when trying
    to use these functions". *)
Definition Logger_critical {A} (msg : string) : M A :=
  invoke (CLoggerCritical msg) no_summary
         (fun e => (Raise (Critical msg), e)).

(** [copy.deepcopy(g)]: a new graph object with the same content.  A
    Python variable always refers to an existing object; the second
    branch only makes the function total on references that a callee
    made up. *)
Definition copy_deepcopy (src : GraphRef) : External GraphRef :=
  fun e =>
    match heap e !! src with
    | Some g =>
        (Ok (length (heap e)),
         {| heap := heap e ++ [g];
            batches_consumed := batches_consumed e;
            fw_info := fw_info e |})
    | None => (Raise (PyException "ReferenceError"), e)
    end.

Definition graph_summary (r : GraphRef) (e : Ext) : Returned :=
  RGraph r (heap e !! r).

Definition call_init_tensorboard_writer : M TensorboardWriter :=
  invoke CInitTensorboardWriter no_summary (init_tensorboard_writer svc).

Definition call_PytorchImplementation : M FwImpl :=
  invoke CPytorchImplementation no_summary (PytorchImplementation svc).

Definition call_load_target_platform_capabilities (arg : TpcArgument)
    : M TargetPlatformCapabilities :=
  invoke (CLoadTargetPlatformCapabilities arg) (fun t _ => RTpc t)
         (load_target_platform_capabilities svc arg).

Definition call_AttachTpcToPytorch : M Attacher :=
  invoke CAttachTpcToPytorch no_summary (AttachTpcToPytorch svc).

Definition call_attach (a : Attacher) (t : TargetPlatformCapabilities)
    (o : OpsetToLayer) : M FrameworkQuantizationCapabilities :=
  invoke (CAttach t) no_summary (attach svc a t o).

Definition call_core_runner in_model representative_data_gen core_config
    fw_impl fqc target_resource_utilization tb_w :=
  invoke (CCoreRunner target_resource_utilization)
         (fun '(tg, bit_widths_config, _, _) e =>
            RCore tg (heap e !! tg) bit_widths_config)
         (core_runner svc in_model representative_data_gen core_config
                      fw_impl fqc target_resource_utilization tb_w).

Definition call_deepcopy (src : GraphRef) : M GraphRef :=
  invoke (CDeepcopy src) graph_summary (copy_deepcopy src).

Definition call_ptq_runner tg representative_data_gen core_config fw_impl
    tb_w : M GraphRef :=
  invoke (CPtqRunner tg) graph_summary
         (ptq_runner svc tg representative_data_gen core_config fw_impl
                     tb_w).

Definition call_quantize_graph_weights (g : GraphRef) : M GraphRef :=
  invoke (CQuantizeGraphWeights g) graph_summary
         (quantize_graph_weights svc g).

Definition call_analyzer_model_quantization representative_data_gen tb_w
    (float_graph quantized_graph : GraphRef) fw_impl : M unit :=
  fun e =>
    invoke (CAnalyzer float_graph quantized_graph
                      (heap e !! float_graph) (heap e !! quantized_graph))
           no_summary
           (analyzer_model_quantization svc representative_data_gen tb_w
                                        float_graph quantized_graph
                                        fw_impl)
           e.

Definition call_get_exportable_pytorch_model (g : GraphRef)
    : M (TorchModule * option UserInformation) :=
  fun e =>
    invoke (CExporter g (heap e !! g))
           (fun '(m, ui) _ => RExport m ui)
           (get_exportable_pytorch_model svc g)
           e.

Definition call_create_model_metadata fqc scheduling_info : M Metadata :=
  invoke CCreateModelMetadata no_summary
         (create_model_metadata svc fqc scheduling_info).

Definition call_add_metadata (m : TorchModule) (md : Metadata)
    : M TorchModule :=
  invoke (CAddMetadata m md) (fun m' _ => RModule m')
         (mctq_add_metadata svc m md).

(** *** The entry point when torch is present

    The arguments of one call, after Python has filled in the defaults
    ([None] for the budget, [CoreConfig()], [DEFAULT_PYTORCH_TPC]). *)

Record FacadeArgs := {
  in_module : TorchModule;
  representative_data_gen : DataGen;
  target_resource_utilization : option MixedPrecision.ResourceUtilization;
  core_config : CoreConfig;
  target_platform_capabilities : TpcArgument
}.

Definition mixed_precision_type_message : string :=
  String.append
    "Given quantization config to mixed-precision facade is not of type "
    (String.append
       "MixedPrecisionQuantizationConfig. Please use "
       (String.append
          "pytorch_post_training_quantization API, or pass a valid mixed precision "
          "configuration.")).

(** The body of [pytorch_post_training_quantization], statement by
    statement. *)
Definition pytorch_post_training_quantization_body (a : FacadeArgs)
    : M (TorchModule * option UserInformation) :=
  if bypass (debug_config (core_config a)) then
    ret (in_module a, None)
  else
    let! _ :=
      (if is_mixed_precision_enabled (core_config a) then
         if isinstance_MixedPrecisionQuantizationConfig
              (mixed_precision_config (core_config a))
         then ret tt
         else Logger_critical mixed_precision_type_message
       else ret tt) in
    let! tb_w := call_init_tensorboard_writer in
    let! fw_impl := call_PytorchImplementation in
    let! loaded_tpc :=
      call_load_target_platform_capabilities
        (target_platform_capabilities a) in
    let! attach2pytorch := call_AttachTpcToPytorch in
    let! framework_platform_capabilities :=
      call_attach attach2pytorch loaded_tpc
        (custom_tpc_opset_to_layer (quantization_config (core_config a))) in
    let! core_out :=
      call_core_runner (in_module a) (representative_data_gen a)
        (core_config a) fw_impl framework_platform_capabilities
        (target_resource_utilization a) tb_w in
    let '(tg, bit_widths_config, _, scheduling_info) := core_out in
    let! similarity_baseline_graph := call_deepcopy tg in
    let! graph_with_stats_correction :=
      call_ptq_runner tg (representative_data_gen a) (core_config a)
        fw_impl tb_w in
    let! _ :=
      (if analyze_similarity (debug_config (core_config a)) then
         let! quantized_graph :=
           call_quantize_graph_weights graph_with_stats_correction in
         call_analyzer_model_quantization (representative_data_gen a) tb_w
           similarity_baseline_graph quantized_graph fw_impl
       else ret tt) in
    let! exported :=
      call_get_exportable_pytorch_model graph_with_stats_correction in
    let '(exportable_model, user_info) := exported in
    let! exportable_model :=
      (if add_metadata (tpc framework_platform_capabilities) then
         let! md :=
           call_create_model_metadata framework_platform_capabilities
             scheduling_info in
         call_add_metadata exportable_model md
       else ret exportable_model) in
    ret (exportable_model, user_info).

(** Modelled from the spec: the decorator [set_pytorch_info] (defined
    in the toolkit's pytorch package, not in this file) configures the
    global framework defaults before the decorated function runs. *)
Definition set_fw_info (i : FrameworkInfo) : External unit :=
  fun e =>
    (Ok tt,
     {| heap := heap e;
        batches_consumed := batches_consumed e;
        fw_info := Some i |}).

Definition set_pytorch_info {A B} (f : A -> M B) : A -> M B :=
  fun a =>
    let! _ := invoke CSetFwInfo no_summary (set_fw_info PyTorchInfo) in
    f a.

Definition pytorch_post_training_quantization
    : FacadeArgs -> M (TorchModule * option UserInformation) :=
  set_pytorch_info pytorch_post_training_quantization_body.

(** *** The entry point when torch is absent *)

Definition torch_missing_message : string :=
  String.append
    "PyTorch must be installed to use 'pytorch_post_training_quantization_experimental'. "
    "The 'torch' package is missing.".

Definition pytorch_post_training_quantization_stub (a : FacadeArgs)
    : M (TorchModule * option UserInformation) :=
  Logger_critical torch_missing_message.

(** *** Module-level code *)

(** Which modules can be imported in the running interpreter. *)
Record PyEnv := { importable : string -> bool }.

(** Modelled from the spec: [FOUND_TORCH] comes from [verify_packages]
    (not in this file); the host framework is feature-detected once and
    the flag cached. *)
Definition FOUND_TORCH (env : PyEnv) : bool := importable env "torch".

Definition unconditional_imports : list string :=
  [ "copy"; "typing";
    "model_compression_toolkit.core.common.user_info";
    "model_compression_toolkit.core.common.visualization.tensorboard_writer";
    "model_compression_toolkit.logger";
    "model_compression_toolkit.constants";
    "model_compression_toolkit.target_platform_capabilities.schema.mct_current_schema";
    "model_compression_toolkit.target_platform_capabilities.tpc_io_handler";
    "model_compression_toolkit.verify_packages";
    "model_compression_toolkit.core.common.mixed_precision.resource_utilization_tools.resource_utilization";
    "model_compression_toolkit.core";
    "model_compression_toolkit.core.common.mixed_precision.mixed_precision_quantization_config";
    "model_compression_toolkit.core.runner";
    "model_compression_toolkit.ptq.runner";
    "model_compression_toolkit.core.analyzer";
    "model_compression_toolkit.core.common.quantization.quantize_graph_weights";
    "model_compression_toolkit.metadata" ].

Definition torch_guarded_imports : list string :=
  [ "model_compression_toolkit.core.pytorch.default_framework_info";
    "model_compression_toolkit.core.pytorch.pytorch_implementation";
    "model_compression_toolkit.target_platform_capabilities.constants";
    "torch.nn";
    "model_compression_toolkit.exporter.model_wrapper.pytorch.builder.fully_quantized_model_builder";
    "model_compression_toolkit";
    "mct_quantizers.pytorch.metadata";
    "model_compression_toolkit.target_platform_capabilities.targetplatform2framework.attach2pytorch" ].

Fixpoint import_all (env : PyEnv) (ms : list string) : Result unit :=
  match ms with
  | [] => Ok tt
  | m :: rest =>
      if importable env m then import_all env rest
      else Raise (ImportError m)
  end.

(** What the name [pytorch_post_training_quantization] is bound to once
    the module has been imported. *)
Inductive EntryPoint :=
| TorchEntry (DEFAULT_PYTORCH_TPC : TargetPlatformCapabilities)
| StubEntry.

(** Importing the module.  [default_tpc] stands for
    [get_target_platform_capabilities(PYTORCH, DEFAULT_TP_MODEL)]. *)
Definition import_quantization_facade (env : PyEnv)
    (default_tpc : Result TargetPlatformCapabilities)
    : Result EntryPoint :=
  match import_all env unconditional_imports with
  | Raise x => Raise x
  | Ok _ =>
      if FOUND_TORCH env then
        match import_all env torch_guarded_imports with
        | Raise x => Raise x
        | Ok _ =>
            match default_tpc with
            | Ok t => Ok (TorchEntry t)
            | Raise x => Raise x
            end
        end
      else Ok StubEntry
  end.

Definition call_entry_point (p : EntryPoint) (a : FacadeArgs)
    : M (TorchModule * option UserInformation) :=
  match p with
  | TorchEntry _ => pytorch_post_training_quantization a
  | StubEntry => pytorch_post_training_quantization_stub a
  end.

End Facade.

(** ** Contracts of the stages behind the facade *)

Section Contracts.
Context `{Host}.

(** The steps of the core runner that come before the search. *)
Definition prepare_type : Type :=
  TorchModule -> DataGen -> CoreConfig -> FwImpl ->
  FrameworkQuantizationCapabilities -> TensorboardWriter ->
  External (GraphRef * list MixedPrecision.NodeCandidates *
            HessianService * SchedulingInfo).

(** Those steps failed with [x]. *)
Definition preparation_raises (prepare : prepare_type) (x : Exn) : Prop :=
  exists m d c f q t e e', prepare m d c f q t e = (Raise x, e').

(** Modelled from the spec: the Core Runner (module
    [model_compression_toolkit.core.runner], not in this file).  Graph
    construction, substitution, calibration and parameter calculation
    are taken as one step, [prepare_graph], which yields the annotated
    graph and each node's candidate configurations; then the bit-width
    search runs if mixed precision is enabled and a budget was
    supplied, and the fixed configuration is applied otherwise. *)
Definition core_runner_model (prepare_graph : prepare_type)
    (in_model : TorchModule) (representative_data_gen : DataGen)
    (core_config : CoreConfig) (fw_impl : FwImpl)
    (fqc : FrameworkQuantizationCapabilities)
    (target_resource_utilization :
       option MixedPrecision.ResourceUtilization)
    (tb_w : TensorboardWriter)
    : External (GraphRef * MixedPrecision.BitwidthConfiguration *
                HessianService * SchedulingInfo) :=
  fun e =>
    match prepare_graph in_model representative_data_gen core_config
                        fw_impl fqc tb_w e with
    | (Raise x, e1) => (Raise x, e1)
    | (Ok (tg, node_candidates, hessian, scheduling_info), e1) =>
        match is_mixed_precision_enabled core_config,
              target_resource_utilization with
        | true, Some ru =>
            match MixedPrecision.search
                    (MixedPrecision.max_utilization ru)
                    node_candidates with
            | Ok cfg => (Ok (tg, cfg, hessian, scheduling_info), e1)
            | Raise x => (Raise x, e1)
            end
        | _, _ =>
            (Ok (tg, MixedPrecision.fixed_configuration node_candidates,
                 hessian, scheduling_info), e1)
        end
    end.

(** Modelled from the spec: the weight quantizer behind
    [quantize_graph_weights] (not in this file) applies every node's
    quantization parameters to its stored values, so that the values
    themselves are quantized and not merely annotated. *)
Definition quantize_node (n : Node) : Node :=
  match qparams n with
  | Some q =>
      {| node_name := node_name n;
         weights := quantize_values q (weights n);
         qparams := Some q |}
  | None => n
  end.

Definition materialize (g : Graph) : Graph :=
  {| nodes := map quantize_node (nodes g); edges := edges g |}.

(** The points at which two graphs can be compared. *)
Definition compare_points (g : Graph) : list string :=
  map node_name (nodes g).

(** A callee handed the graph behind [l] changes no other graph that
    existed when it was called. *)
Definition touches_only (l : GraphRef) (e e' : Ext) : Prop :=
  forall k g, k <> l -> heap e !! k = Some g -> heap e' !! k = Some g.

(** References handed back by a callee refer to graphs that exist. *)
Definition core_runner_returns_graph (svc : Services) : Prop :=
  forall m d c f q r t e tg cfg h s e',
    core_runner svc m d c f q r t e = (Ok (tg, cfg, h, s), e') ->
    is_Some (heap e' !! tg).

(** Modelled from the spec: the PTQ Runner corrects values of the graph
    it is given, in place or in a graph it creates, and must not alter
    graph topology. *)
Definition ptq_runner_contract (svc : Services) : Prop :=
  forall tg d c f t e l e',
    ptq_runner svc tg d c f t e = (Ok l, e') ->
    touches_only tg e e' /\
    (l = tg \/ length (heap e) <= l) /\
    forall g, heap e !! tg = Some g ->
      exists g', heap e' !! l = Some g' /\
                 compare_points g' = compare_points g.

(** Modelled from the spec: [quantize_graph_weights] hands back the fully
    materialized quantized graph of the graph it is given and, as a
    diagnostic side step, leaves every other graph as it was. *)
Definition quantize_graph_weights_contract (svc : Services) : Prop :=
  forall l e l' e',
    quantize_graph_weights svc l e = (Ok l', e') ->
    touches_only l e e' /\
    forall g, heap e !! l = Some g ->
      heap e' !! l' = Some (materialize g).

(** Modelled from the spec: the exporter (not in this file) produces the
    UserInformation summary once, at the end of the run. *)
Definition exporter_produces_user_information (svc : Services) : Prop :=
  forall g e m ui e',
    get_exportable_pytorch_model svc g e = (Ok (m, ui), e') ->
    ui <> None.

(** Modelled from the spec: the capability spec is immutable once
    loaded and shared read-only across the run, so the capabilities
    attached to the framework carry the spec that was loaded. *)
Definition attach_keeps_tpc (svc : Services) : Prop :=
  forall a t o e q e',
    attach svc a t o e = (Ok q, e') -> tpc q = t.

(** The stage order of the control-flow contract for one run. *)
Definition stage_order (c : CoreConfig) : list Stage :=
  [CoreRunner; PtqRunner] ++
  (if analyze_similarity (debug_config c) then [SimilarityAnalyzer]
   else []) ++
  [Exporter].

Definition mentions (c : Call) (t : list Event) : Prop :=
  exists o, In (c, o) t.

(** The calls that only happen for similarity analysis. *)
Definition is_similarity_step (c : Call) : bool :=
  match c with
  | CQuantizeGraphWeights _ | CAnalyzer _ _ _ _ => true
  | _ => false
  end.

Definition is_analyzer_call (c : Call) : bool :=
  match c with CAnalyzer _ _ _ _ => true | _ => false end.

Definition is_add_metadata_call (c : Call) : bool :=
  match c with CAddMetadata _ _ => true | _ => false end.

Definition count_calls (p : Call -> bool) (t : list Event) : nat :=
  length (List.filter (fun ev => p (fst ev)) t).

End Contracts.

(** ** Observations on runs *)

Section Observations.
Context `{Host}.

(** The callee of this event returned. *)
Definition returned (ev : Event) : bool :=
  match snd ev with
  | Returns _ => true
  | Raises _ => false
  end.

(** [svc] with the two outputs of the core runner that the facade binds
    and never reads ([bit_widths_config] and the hessian info service)
    replaced by [f] and [g] of them. *)
Definition with_core_outputs (svc : Services)
    (f : MixedPrecision.BitwidthConfiguration ->
         MixedPrecision.BitwidthConfiguration)
    (g : HessianService -> HessianService) : Services := {|
  init_tensorboard_writer := init_tensorboard_writer svc;
  PytorchImplementation := PytorchImplementation svc;
  load_target_platform_capabilities :=
    load_target_platform_capabilities svc;
  AttachTpcToPytorch := AttachTpcToPytorch svc;
  attach := attach svc;
  core_runner :=
    fun m d c fw q r t e =>
      match core_runner svc m d c fw q r t e with
      | (Ok (tg, cfg, h, s), e') => (Ok (tg, f cfg, g h, s), e')
      | (Raise x, e') => (Raise x, e')
      end;
  ptq_runner := ptq_runner svc;
  quantize_graph_weights := quantize_graph_weights svc;
  analyzer_model_quantization := analyzer_model_quantization svc;
  get_exportable_pytorch_model := get_exportable_pytorch_model svc;
  create_model_metadata := create_model_metadata svc;
  mctq_add_metadata := mctq_add_metadata svc
|}.

(** The configuration check and the calls that set things up for the
    stages. *)
Definition is_setup_call (c : Call) : bool :=
  match c with
  | CLoggerCritical _ | CInitTensorboardWriter | CPytorchImplementation
  | CLoadTargetPlatformCapabilities _ | CAttachTpcToPytorch | CAttach _ =>
      true
  | _ => false
  end.


End Observations.

(** ** A small concrete instance

    A host whose objects are strings and numbers, a two-node graph, and
    stages that behave as the toolkit's do: the core runner builds the
    graph and draws calibration batches, the PTQ runner corrects the graph
    it is given in place. *)

Module Demo.

Definition demo_host : Host := {|
  TorchModule := string;
  DataGen := nat;
  TensorboardWriter := unit;
  FwImpl := unit;
  Attacher := unit;
  OpsetToLayer := unit;
  MPSettings := unit;
  HessianService := unit;
  SchedulingInfo := string;
  UserInformation := string;
  Metadata := string;
  TpcBody := unit;
  Weights := N;
  QParams := N;
  quantize_values := fun step w => (w / step * step)%N
|}.
#[local] Existing Instance demo_host.

Definition float_graph : Graph := {|
  nodes := [ {| node_name := "conv1"; weights := 37%N; qparams := Some 8%N |};
             {| node_name := "relu"; weights := 5%N; qparams := None |} ];
  edges := [("conv1", "relu")]
|}.

Definition node_candidates : list MixedPrecision.NodeCandidates :=
  [ {| MixedPrecision.nc_name := "conv1";
       MixedPrecision.candidates :=
         [ {| MixedPrecision.bitwidth := 8; MixedPrecision.cost := 8;
              MixedPrecision.sensitivity := 1 |};
           {| MixedPrecision.bitwidth := 4; MixedPrecision.cost := 4;
              MixedPrecision.sensitivity := 5 |};
           {| MixedPrecision.bitwidth := 2; MixedPrecision.cost := 2;
              MixedPrecision.sensitivity := 20 |} ] |};
    {| MixedPrecision.nc_name := "fc";
       MixedPrecision.candidates :=
         [ {| MixedPrecision.bitwidth := 8; MixedPrecision.cost := 8;
              MixedPrecision.sensitivity := 2 |};
           {| MixedPrecision.bitwidth := 4; MixedPrecision.cost := 4;
              MixedPrecision.sensitivity := 3 |} ] |} ].

Definition draw (batches : nat) (e : Ext) : Ext :=
  {| heap := heap e;
     batches_consumed := batches_consumed e + batches;
     fw_info := fw_info e |}.

Definition with_heap (h : list Graph) (e : Ext) : Ext :=
  {| heap := h;
     batches_consumed := batches_consumed e;
     fw_info := fw_info e |}.

(** Builds the graph and calibrates on every batch; an empty generator
    is a data error. *)
Definition prepare_graph (m : string) (d : nat) (c : CoreConfig) (f : unit)
    (q : FrameworkQuantizationCapabilities) (t : unit)
    : External (GraphRef * list MixedPrecision.NodeCandidates *
                unit * string) :=
  fun e =>
    match d with
    | 0 => (Raise (PyException "empty representative dataset"), e)
    | _ =>
        (Ok (length (heap e), node_candidates, tt, "exhaustive"),
         draw d (with_heap (heap e ++ [float_graph]) e))
    end.

Definition correct_node (n : Node) : Node :=
  {| node_name := node_name n;
     weights := (weights n + 1)%N;
     qparams := qparams n |}.

Definition correct_graph (g : Graph) : Graph :=
  {| nodes := map correct_node (nodes g); edges := edges g |}.

Definition services : Services := {|
  init_tensorboard_writer := fun e => (Ok tt, e);
  PytorchImplementation := fun e => (Ok tt, e);
  load_target_platform_capabilities :=
    fun arg e =>
      match arg with
      | TpcObject t => (Ok t, e)
      | TpcPath _ => (Raise (PyException "FileNotFoundError"), e)
      end;
  AttachTpcToPytorch := fun e => (Ok tt, e);
  attach := fun _ t o e => (Ok {| tpc := t; attached_with := o |}, e);
  core_runner := core_runner_model prepare_graph;
  ptq_runner :=
    fun tg d _ _ _ e =>
      (Ok tg, draw d (with_heap (alter correct_graph tg (heap e)) e));
  quantize_graph_weights :=
    fun l e =>
      match heap e !! l with
      | Some g =>
          (Ok (length (heap e)),
           with_heap (heap e ++ [materialize g]) e)
      | None => (Raise (PyException "ReferenceError"), e)
      end;
  analyzer_model_quantization := fun d _ _ _ _ e => (Ok tt, draw d e);
  get_exportable_pytorch_model :=
    fun _ e => (Ok ("quantized_model", Some "user_info"), e);
  create_model_metadata := fun _ s e => (Ok s, e);
  mctq_add_metadata :=
    fun m md e => (Ok (String.append m (String.append "+" md)), e)
|}.

(** The same stages, except that the similarity analyzer raises. *)
Definition services_failing_analyzer : Services := {|
  init_tensorboard_writer := init_tensorboard_writer services;
  PytorchImplementation := PytorchImplementation services;
  load_target_platform_capabilities :=
    load_target_platform_capabilities services;
  AttachTpcToPytorch := AttachTpcToPytorch services;
  attach := attach services;
  core_runner := core_runner services;
  ptq_runner := ptq_runner services;
  quantize_graph_weights := quantize_graph_weights services;
  analyzer_model_quantization :=
    fun _ _ _ _ _ e => (Raise (PyException "RuntimeError"), e);
  get_exportable_pytorch_model := get_exportable_pytorch_model services;
  create_model_metadata := create_model_metadata services;
  mctq_add_metadata := mctq_add_metadata services
|}.

Definition empty_world : Ext :=
  {| heap := []; batches_consumed := 0; fw_info := None |}.

Definition platform (embed_metadata : bool) : TargetPlatformCapabilities :=
  {| add_metadata := embed_metadata; tpc_body := tt |}.

Definition config (bypass_flag similarity mixed_precision : bool)
    (mp : MPConfigObject) : CoreConfig :=
  {| debug_config :=
       {| bypass := bypass_flag; analyze_similarity := similarity |};
     is_mixed_precision_enabled := mixed_precision;
     mixed_precision_config := mp;
     quantization_config := {| custom_tpc_opset_to_layer := tt |} |}.

Definition args (c : CoreConfig)
    (budget : option MixedPrecision.ResourceUtilization)
    (embed_metadata : bool) : FacadeArgs :=
  {| in_module := "float_model";
     representative_data_gen := 10;
     target_resource_utilization := budget;
     core_config := c;
     target_platform_capabilities := TpcObject (platform embed_metadata) |}.

Definition dict_object : MPConfigObject := OtherObject "dict".

(** Bypass set, mixed precision enabled with a dict as configuration. *)
Definition bypass_args : FacadeArgs :=
  args (config true true true dict_object) None false.

(** The same without bypass. *)
Definition wrong_type_args : FacadeArgs :=
  args (config false false true dict_object) None false.

(** Mixed precision under a budget of 12, similarity analysis and
    metadata embedding requested. *)
Definition budget : MixedPrecision.ResourceUtilization :=
  {| MixedPrecision.max_utilization := 12 |}.

Definition full_args : FacadeArgs :=
  args (config false true true (MPQuantizationConfig tt)) (Some budget)
       true.

(** Fixed precision with similarity analysis requested. *)
Definition analysis_args : FacadeArgs :=
  args (config false true false (OtherObject "NoneType")) None false.

(** A budget below the cost of every configuration. *)
Definition tight_budget : MixedPrecision.ResourceUtilization :=
  {| MixedPrecision.max_utilization := 5 |}.

Definition infeasible_args : FacadeArgs :=
  args (config false true true (MPQuantizationConfig tt)) (Some tight_budget)
       true.

Definition bypass_run :=
  pytorch_post_training_quantization services bypass_args empty_world.

Definition wrong_type_run :=
  pytorch_post_training_quantization services wrong_type_args empty_world.

Definition full_run :=
  pytorch_post_training_quantization services full_args empty_world.

Definition infeasible_run :=
  pytorch_post_training_quantization services infeasible_args empty_world.

Definition failing_analysis_run :=
  pytorch_post_training_quantization services_failing_analyzer
    analysis_args empty_world.

(** An interpreter without torch: nothing that needs it imports. *)
Definition env_without_torch : PyEnv :=
  {| importable :=
       fun m =>
         negb (String.prefix "torch" m) &&
         negb (String.prefix "mct_quantizers" m) &&
         negb (String.prefix "model_compression_toolkit.core.pytorch" m) &&
         negb (String.prefix "model_compression_toolkit.exporter" m) |}.


(** An interpreter with torch and everything else installed. *)
Definition env_with_torch : PyEnv := {| importable := fun _ => true |}.


(** Fixed precision, no similarity analysis, no metadata. *)
Definition plain_args : FacadeArgs :=
  args (config false false false (OtherObject "NoneType")) None false.

(** The capability spec given as a path to a file that is not there. *)
Definition missing_tpc_args : FacadeArgs :=
  {| in_module := "float_model";
     representative_data_gen := 10;
     target_resource_utilization := None;
     core_config := config false false false (OtherObject "NoneType");
     target_platform_capabilities := TpcPath "missing.json" |}.

Definition missing_tpc_run :=
  pytorch_post_training_quantization services missing_tpc_args empty_world.

Definition plain_run :=
  pytorch_post_training_quantization services plain_args empty_world.

End Demo.

(** * Properties *)

(** ** The bit-width search *)

Module MixedPrecisionFacts.
Import MixedPrecision.

Lemma all_configurations_valid nodes cfg :
  In cfg (all_configurations nodes) <-> valid_for nodes cfg.
Proof.
  unfold valid_for. revert cfg.
  induction nodes as [| n rest IH]; intros cfg; simpl.
  - split.
    + intros [<- | []]. constructor.
    + intros Hv. inversion Hv. now left.
  - rewrite in_flat_map. split.
    + intros (c & Hc & Hin). apply in_map_iff in Hin.
      destruct Hin as (tl & <- & Htl). constructor; [exact Hc |].
      now apply IH.
    + intros Hv. inversion Hv as [| n' c rest' tl Hc Htl]; subst.
      exists c. split; [exact Hc |]. apply in_map_iff.
      exists tl. split; [reflexivity |]. now apply IH.
Qed.

Lemma fold_less_sensitive_in cs : forall c,
  In (fold_left less_sensitive cs c) (c :: cs).
Proof.
  induction cs as [| d cs IH]; intros c; simpl.
  - now left.
  - destruct (IH (less_sensitive c d)) as [Heq | Hin].
    + rewrite <- Heq. unfold less_sensitive.
      destruct (total_sensitivity d <? total_sensitivity c)%N; auto.
    + right. now right.
Qed.

Lemma fold_less_sensitive_least cs : forall c c',
  In c' (c :: cs) ->
  (total_sensitivity (fold_left less_sensitive cs c) <=
   total_sensitivity c')%N.
Proof.
  induction cs as [| d cs IH]; intros c c' Hin; simpl.
  - destruct Hin as [<- | []]. lia.
  - assert (Hstep : (total_sensitivity (less_sensitive c d) <=
                     total_sensitivity c)%N /\
                    (total_sensitivity (less_sensitive c d) <=
                     total_sensitivity d)%N).
    { unfold less_sensitive.
      destruct (N.ltb_spec (total_sensitivity d) (total_sensitivity c));
        lia. }
    destruct Hin as [<- | [<- | Hin]].
    + pose proof (IH (less_sensitive c d) _ (or_introl eq_refl)). lia.
    + pose proof (IH (less_sensitive c d) _ (or_introl eq_refl)). lia.
    + apply IH. now right.
Qed.

(** A configuration returned by the search is one candidate per node,
    fits the budget, and no fitting configuration is less sensitive. *)
Lemma search_returns budget nodes cfg :
  search budget nodes = Ok cfg ->
  valid_for nodes cfg /\
  (total_cost cfg <= budget)%N /\
  forall cfg', valid_for nodes cfg' -> (total_cost cfg' <= budget)%N ->
    (total_sensitivity cfg <= total_sensitivity cfg')%N.
Proof.
  unfold search.
  destruct (List.filter _ _) as [| c cs] eqn:Hf; [discriminate |].
  intros [= <-].
  assert (Hsel : forall x, In x (c :: cs) <->
            valid_for nodes x /\ within_budget budget x = true).
  { intros x. rewrite <- Hf, filter_In, all_configurations_valid.
    reflexivity. }
  pose proof (fold_less_sensitive_in cs c) as Hin.
  apply Hsel in Hin. destruct Hin as [Hv Hb].
  unfold within_budget in Hb. apply N.leb_le in Hb.
  repeat split; try assumption.
  intros cfg' Hv' Hb'. apply fold_less_sensitive_least.
  apply Hsel. split; [exact Hv' |].
  unfold within_budget. now apply N.leb_le.
Qed.

(** The search only fails with the infeasibility error, and only when
    no configuration fits the budget. *)
Lemma search_raises budget nodes x :
  search budget nodes = Raise x ->
  x = InfeasibleBudget /\
  forall cfg, valid_for nodes cfg -> (budget < total_cost cfg)%N.
Proof.
  unfold search.
  destruct (List.filter _ _) as [| c cs] eqn:Hf; [| discriminate].
  intros [= <-]. split; [reflexivity |].
  intros cfg Hv.
  destruct (N.ltb_spec budget (total_cost cfg)) as [Hlt | Hle];
    [exact Hlt |].
  assert (Hin : In cfg (List.filter (within_budget budget)
                          (all_configurations nodes))).
  { apply filter_In. split; [now apply all_configurations_valid |].
    unfold within_budget. now apply N.leb_le. }
  rewrite Hf in Hin. destruct Hin.
Qed.

End MixedPrecisionFacts.

(** ** The facade *)

Ltac unfold_facade_in Hr :=
  unfold pytorch_post_training_quantization, set_pytorch_info,
    pytorch_post_training_quantization_body, call_init_tensorboard_writer,
    call_PytorchImplementation, call_load_target_platform_capabilities,
    call_AttachTpcToPytorch, call_attach, call_core_runner, call_deepcopy,
    call_ptq_runner, call_quantize_graph_weights,
    call_analyzer_model_quantization, call_get_exportable_pytorch_model,
    call_create_model_metadata, call_add_metadata, Logger_critical,
    bind, invoke, ret, set_fw_info in Hr.

(** One step of the run recorded in [Hr]: case analysis on the next
    callee's outcome, or on the next flag tested. *)
Ltac step_in Hr :=
  match type of Hr with
  | context [match ?f with (_, _) => _ end] =>
      first [ is_var f; destruct f
            | destruct f as [[? | ?] ?] eqn:? ];
      cbn iota beta in Hr
  | context [if ?b then _ else _] =>
      destruct b eqn:?; cbn iota beta in Hr
  end.

(** Case analysis on which event of a known trace a hypothesis speaks
    about. *)
Ltac trace_cases :=
  repeat match goal with
         | Hin : False |- _ => destruct Hin
         | Hin : _ \/ _ |- _ => destruct Hin as [Hin | Hin]
         | Hin : In _ [] |- _ => destruct Hin
         | Hin : In _ (_ :: _) |- _ => destruct Hin as [Hin | Hin]
         end;
  simplify_eq.

Ltac run_facade Hr :=
  unfold_facade_in Hr; cbn iota beta in Hr; repeat step_in Hr.

Section FacadeProperties.
Context `{Host}.
Variable svc : Services.

Lemma bypass_run (a : FacadeArgs) (e : Ext) :
  bypass (debug_config (core_config a)) = true ->
  pytorch_post_training_quantization svc a e =
    {| result := Ok (in_module a, None);
       final := {| heap := heap e;
                   batches_consumed := batches_consumed e;
                   fw_info := Some PyTorchInfo |};
       trace := [(CSetFwInfo, Returns RNone)] |}.
Proof.
  intros Hb.
  unfold pytorch_post_training_quantization, set_pytorch_info,
    pytorch_post_training_quantization_body.
  rewrite Hb. reflexivity.
Qed.

(** C1: with the bypass flag set, the entry point returns the module it
    was given together with no UserInformation; no calibration batch is
    drawn, no graph is created or changed, and no stage runs: the only
    thing executed is the decorator's framework-info setup. *)
Theorem bypass_returns_original_module (a : FacadeArgs) (e : Ext) :
  bypass (debug_config (core_config a)) = true ->
  result (pytorch_post_training_quantization svc a e) =
    Ok (in_module a, None) /\
  batches_consumed (final (pytorch_post_training_quantization svc a e)) =
    batches_consumed e /\
  heap (final (pytorch_post_training_quantization svc a e)) = heap e /\
  trace (pytorch_post_training_quantization svc a e) =
    [(CSetFwInfo, Returns RNone)] /\
  stages (trace (pytorch_post_training_quantization svc a e)) = [].
Proof.
  intros Hb. rewrite (bypass_run a e Hb). repeat split.
Qed.

(** C9: the bypass test comes first.  With bypass set the entry point
    returns the original module and None even when mixed precision is
    enabled and the mixed-precision configuration has the wrong type;
    [Logger.critical] is never called. *)
Theorem bypass_precedes_validation (a : FacadeArgs) (e : Ext) :
  bypass (debug_config (core_config a)) = true ->
  is_mixed_precision_enabled (core_config a) = true ->
  isinstance_MixedPrecisionQuantizationConfig
    (mixed_precision_config (core_config a)) = false ->
  result (pytorch_post_training_quantization svc a e) =
    Ok (in_module a, None) /\
  forall msg,
    ~ mentions (CLoggerCritical msg)
        (trace (pytorch_post_training_quantization svc a e)).
Proof.
  intros Hb _ _. rewrite (bypass_run a e Hb). split; [reflexivity |].
  intros msg [o [Hin | []]]. discriminate Hin.
Qed.

(** C3, amended: in a run without bypass, mixed precision enabled with a
    mixed-precision configuration that is not a
    MixedPrecisionQuantizationConfig aborts with the descriptive
    critical error before anything else is called: no batch is drawn,
    no graph exists, nothing is returned. *)
Theorem wrong_mixed_precision_type_is_fatal (a : FacadeArgs) (e : Ext) :
  bypass (debug_config (core_config a)) = false ->
  is_mixed_precision_enabled (core_config a) = true ->
  isinstance_MixedPrecisionQuantizationConfig
    (mixed_precision_config (core_config a)) = false ->
  result (pytorch_post_training_quantization svc a e) =
    Raise (Critical mixed_precision_type_message) /\
  trace (pytorch_post_training_quantization svc a e) =
    [ (CSetFwInfo, Returns RNone);
      (CLoggerCritical mixed_precision_type_message,
       Raises (Critical mixed_precision_type_message)) ] /\
  batches_consumed (final (pytorch_post_training_quantization svc a e)) =
    batches_consumed e /\
  heap (final (pytorch_post_training_quantization svc a e)) = heap e.
Proof.
  intros Hb Hmp Hty.
  unfold pytorch_post_training_quantization, set_pytorch_info,
    pytorch_post_training_quantization_body.
  rewrite Hb, Hmp, Hty. repeat split.
Qed.

(** C2, amended: in every run without bypass the stages that execute
    form an initial part of Core Runner, PTQ Runner, Similarity Analyzer
    (only if requested), Exporter; the Exporter is invoked at most once,
    and in a run that returns all of them executed and the Exporter was
    invoked exactly once. *)
Theorem stages_run_in_order (a : FacadeArgs) (e : Ext) r :
  pytorch_post_training_quantization svc a e = r ->
  bypass (debug_config (core_config a)) = false ->
  (exists rest,
      stage_order (core_config a) = stages (trace r) ++ rest /\
      ((exists v, result r = Ok v) -> rest = [])) /\
  invocations Exporter (trace r) <= 1 /\
  ((exists v, result r = Ok v) -> invocations Exporter (trace r) = 1).
Proof.
  intros Hr Hb. run_facade Hr; try discriminate.
  all: subst r; unfold stage_order, invocations;
    repeat match goal with
           | E : analyze_similarity _ = _ |- _ => rewrite E
           end; cbn.
  all: split;
    [ eexists; split;
      [ reflexivity | intros [v Hv]; try discriminate Hv; reflexivity ]
    | split; [ lia | intros [v Hv]; try discriminate Hv; reflexivity ] ].
Qed.

(** C4, amended: a failure raised in the similarity-analysis step is not
    caught.  It becomes the outcome of the whole run and the Exporter is
    not invoked.  When the analyzer returns, the Exporter is invoked,
    once, on the graph the PTQ Runner returned. *)
Theorem analyzer_failure_propagates (a : FacadeArgs) (e : Ext) r :
  pytorch_post_training_quantization svc a e = r ->
  bypass (debug_config (core_config a)) = false ->
  (forall c x,
      is_similarity_step c = true -> In (c, Raises x) (trace r) ->
      result r = Raise x /\ invocations Exporter (trace r) = 0) /\
  (forall c ret,
      is_analyzer_call c = true -> In (c, Returns ret) (trace r) ->
      exists tg corrected g exported o,
        In (CPtqRunner tg, Returns (RGraph corrected g)) (trace r) /\
        In (CExporter corrected exported, o) (trace r) /\
        invocations Exporter (trace r) = 1).
Proof.
  intros Hr Hb. run_facade Hr; try discriminate.
  all: subst r; split; intros c y Hc Hin; cbn in Hin; trace_cases.
  all: try discriminate Hc.
  all: try (split; reflexivity).
  all: do 5 eexists; cbn; split; [| split]; [| | reflexivity];
    eauto 20.
Qed.

(** C8: metadata is attached exactly when the loaded capability spec
    asks for it.  [add_metadata] is called only if the flag is set; a
    run that returns hands back the exporter's model with the metadata
    added when the flag is set, and the exporter's model itself, with no
    call to [add_metadata], when it is not. *)
Theorem metadata_attached_iff_requested (a : FacadeArgs) (e : Ext) r :
  attach_keeps_tpc svc ->
  pytorch_post_training_quantization svc a e = r ->
  bypass (debug_config (core_config a)) = false ->
  (forall c o,
      is_add_metadata_call c = true -> In (c, o) (trace r) ->
      exists t,
        In (CLoadTargetPlatformCapabilities
              (target_platform_capabilities a), Returns (RTpc t))
           (trace r) /\
        add_metadata t = true) /\
  (forall m ui,
      result r = Ok (m, ui) ->
      exists t g graph m0,
        In (CLoadTargetPlatformCapabilities
              (target_platform_capabilities a), Returns (RTpc t))
           (trace r) /\
        In (CExporter g graph, Returns (RExport m0 ui)) (trace r) /\
        if add_metadata t
        then exists md,
               In (CAddMetadata m0 md, Returns (RModule m)) (trace r)
        else m = m0 /\ count_calls is_add_metadata_call (trace r) = 0).
Proof.
  intros Hattach Hr Hb. run_facade Hr; try discriminate.
  all: subst r; cbn [result trace].
  all: repeat match goal with
              | E : attach svc _ _ _ _ = (Ok _, _) |- _ =>
                  apply Hattach in E; rewrite E in *
              end.
  all: split;
    [ intros c y Hc Hin; cbn in Hin; trace_cases;
      try discriminate Hc; eexists; cbn; eauto 20
    | intros m ui Hres; try discriminate Hres ].
  all: injection Hres as <- <-.
  all: do 4 eexists; cbn; split; [| split]; [ eauto 20 | eauto 20 |].
  all: match goal with
       | E : add_metadata _ = _ |- _ => rewrite E
       end.
  all: first [ eexists; eauto 20 | split; reflexivity ].
Qed.

(** C10: the UserInformation component of a returned pair is None
    exactly when bypass is set.  A run without bypass that returns hands
    back the user-information object the exporter produced, paired with
    the exporter's model (with metadata added if that was requested). *)
Theorem user_information_none_iff_bypass (a : FacadeArgs) (e : Ext) r
    m ui :
  exporter_produces_user_information svc ->
  pytorch_post_training_quantization svc a e = r ->
  result r = Ok (m, ui) ->
  (ui = None <-> bypass (debug_config (core_config a)) = true) /\
  (bypass (debug_config (core_config a)) = false ->
   exists g graph m0 u,
     ui = Some u /\
     In (CExporter g graph, Returns (RExport m0 (Some u))) (trace r) /\
     (m = m0 \/
      exists md, In (CAddMetadata m0 md, Returns (RModule m)) (trace r))).
Proof.
  intros Hexp Hr Hres. run_facade Hr; subst r; try discriminate Hres.
  all: cbn [result trace] in *; injection Hres as <- <-.
  all: try (split; [ split; reflexivity | discriminate ]).
  all: match goal with
       | E : get_exportable_pytorch_model svc _ _ = (Ok (_, ?o), _) |- _ =>
           pose proof (Hexp _ _ _ _ _ E) as Hsome;
           destruct o as [u |]; [clear Hsome | now destruct Hsome]
       end.
  all: split; [ split; discriminate |].
  all: intros _; do 4 eexists; cbn; split; [ reflexivity | split ];
    [ eauto 20 | eauto 20 ].
Qed.

End FacadeProperties.

(** ** Module-level behaviour *)

Section ModuleLevel.
Context `{Host}.

Lemma import_all_ok (env : PyEnv) (ms : list string) :
  (forall m, In m ms -> importable env m = true) ->
  import_all env ms = Ok tt.
Proof.
  induction ms as [| m rest IH]; intros Hall; cbn; [reflexivity |].
  rewrite (Hall m (or_introl eq_refl)). apply IH.
  intros m' Hin. apply Hall. now right.
Qed.

(** C6: without torch, importing the facade module succeeds (nothing it
    imports outside the torch guard needs torch) and binds the entry
    point to the stub; every call of the entry point then raises the
    critical "PyTorch must be installed" error, whatever the arguments
    and whatever the state of the world, and does nothing else. *)
Theorem torch_missing_fails_on_use (env : PyEnv)
    (default_tpc : Result TargetPlatformCapabilities) :
  importable env "torch" = false ->
  (forall m, In m unconditional_imports -> importable env m = true) ->
  import_quantization_facade env default_tpc = Ok StubEntry /\
  forall (svc : Services) (a : FacadeArgs) (e : Ext),
    call_entry_point svc StubEntry a e =
      {| result := Raise (Critical torch_missing_message);
         final := e;
         trace := [ (CLoggerCritical torch_missing_message,
                     Raises (Critical torch_missing_message)) ] |}.
Proof.
  intros Htorch Himports. split.
  - unfold import_quantization_facade, FOUND_TORCH.
    rewrite (import_all_ok env _ Himports), Htorch. reflexivity.
  - intros svc a e. reflexivity.
Qed.

End ModuleLevel.

(** ** The core runner's budget guarantee *)

Section Budget.
Context `{Host}.

Lemma core_runner_model_returns prepare m d c f q ru t e tg cfg h s e' :
  core_runner_model prepare m d c f q (Some ru) t e =
    (Ok (tg, cfg, h, s), e') ->
  is_mixed_precision_enabled c = true ->
  (MixedPrecision.total_cost cfg <= MixedPrecision.max_utilization ru)%N.
Proof.
  intros Hrun Hmp. revert Hrun. unfold core_runner_model. rewrite Hmp.
  destruct (prepare m d c f q t e) as [[[[[tg' ns] h'] s'] | x] e1];
    [| discriminate].
  destruct (MixedPrecision.search _ ns) as [cfg' | x] eqn:Hs;
    [| discriminate].
  intros [= <- <- <- <- <-].
  now apply MixedPrecisionFacts.search_returns in Hs.
Qed.

Lemma core_runner_model_raises prepare m d c f q ru t e x e' :
  core_runner_model prepare m d c f q (Some ru) t e = (Raise x, e') ->
  is_mixed_precision_enabled c = true ->
  x = InfeasibleBudget \/ preparation_raises prepare x.
Proof.
  intros Hrun Hmp. revert Hrun. unfold core_runner_model. rewrite Hmp.
  destruct (prepare m d c f q t e) as [[[[[tg' ns] h'] s'] | y] e1] eqn:Hp.
  - destruct (MixedPrecision.search _ ns) as [cfg' | y] eqn:Hs;
      [discriminate |].
    intros [= <- <-]. left.
    now apply MixedPrecisionFacts.search_raises in Hs.
  - intros [= <- <-]. right. unfold preparation_raises. eauto 10.
Qed.

(** C5: in a run with mixed precision enabled and a budget supplied,
    whenever the core runner hands back a bit-width configuration its
    total resource cost is within the budget; otherwise the core runner
    raised, the run ends with that very error without exporting
    anything, and the error is the explicit infeasibility error unless
    a step before the search had already failed. *)
Theorem budget_respected_or_infeasible (svc : Services)
    (prepare : prepare_type) (a : FacadeArgs) (e : Ext) r budget :
  core_runner svc = core_runner_model prepare ->
  pytorch_post_training_quantization svc a e = r ->
  is_mixed_precision_enabled (core_config a) = true ->
  target_resource_utilization a = Some budget ->
  (forall c tg g cfg,
      In (c, Returns (RCore tg g cfg)) (trace r) ->
      (MixedPrecision.total_cost cfg <=
       MixedPrecision.max_utilization budget)%N) /\
  (forall ru x,
      In (CCoreRunner ru, Raises x) (trace r) ->
      result r = Raise x /\
      invocations Exporter (trace r) = 0 /\
      (x = InfeasibleBudget \/ preparation_raises prepare x)).
Proof.
  intros Hcore Hr Hmp Hru. run_facade Hr; try discriminate.
  all: subst r; cbn [result trace].
  all: repeat match goal with
              | E : core_runner _ _ _ _ _ _ _ _ _ = (Ok _, _),
                M : is_mixed_precision_enabled _ = true |- _ =>
                  rewrite Hcore, Hru in E;
                  pose proof
                    (core_runner_model_returns _ _ _ _ _ _ _ _ _ _ _ _ _ _
                       E M);
                  clear E
              | E : core_runner _ _ _ _ _ _ _ _ _ = (Raise _, _),
                M : is_mixed_precision_enabled _ = true |- _ =>
                  rewrite Hcore, Hru in E;
                  pose proof
                    (core_runner_model_raises _ _ _ _ _ _ _ _ _ _ _ E M);
                  clear E
              end.
  all: split;
    [ intros c0 tg0 g0 cfg0 Hin | intros ru0 x0 Hin ];
    cbn in Hin; trace_cases; try assumption.
  all: repeat split; auto.
Qed.

End Budget.

(** ** What the similarity analyzer is given *)

Section Similarity.
Context `{Host}.
Variable svc : Services.

Lemma materialize_compare_points (g : Graph) :
  compare_points (materialize g) = compare_points g.
Proof.
  unfold compare_points, materialize. cbn [nodes].
  rewrite List.map_map. apply List.map_ext.
  intros n. unfold quantize_node. now destruct (qparams n).
Qed.

Lemma deepcopy_returns (src : GraphRef) (e : Ext) (g : Graph) copy e' :
  heap e !! src = Some g ->
  copy_deepcopy src e = (Ok copy, e') ->
  copy = length (heap e) /\ heap e' = heap e ++ [g].
Proof.
  intros Hg. unfold copy_deepcopy. rewrite Hg. intros [= <- <-].
  split; reflexivity.
Qed.

(** The copy taken before the PTQ Runner and the weight quantizer run
    still holds what the core runner produced when the analyzer is
    reached, whatever those two did to the graph they were given. *)
Lemma baseline_survives d c f t (e5 e6 e7 e8 : Ext) (tg bl lc ql : GraphRef)
    (g0 : Graph) :
  ptq_runner_contract svc ->
  quantize_graph_weights_contract svc ->
  heap e5 !! tg = Some g0 ->
  copy_deepcopy tg e5 = (Ok bl, e6) ->
  ptq_runner svc tg d c f t e6 = (Ok lc, e7) ->
  quantize_graph_weights svc lc e7 = (Ok ql, e8) ->
  heap e6 !! bl = Some g0 /\
  exists gc,
    heap e7 !! lc = Some gc /\
    heap e8 !! ql = Some (materialize gc) /\
    heap e8 !! bl = Some g0 /\
    compare_points (materialize gc) = compare_points g0.
Proof.
  intros Hptq Hq Hg0 Ecopy Eptq Equant.
  destruct (deepcopy_returns _ _ _ _ _ Hg0 Ecopy) as [-> Hheap6].
  pose proof (lookup_lt_Some _ _ _ Hg0) as Hlt.
  assert (Hbl6 : heap e6 !! length (heap e5) = Some g0).
  { rewrite Hheap6. now apply list_lookup_middle. }
  assert (Htg6 : heap e6 !! tg = Some g0).
  { rewrite Hheap6. now apply lookup_app_l_Some. }
  destruct (Hptq _ _ _ _ _ _ _ _ Eptq) as (Hframe7 & Hwhere & Hcorr).
  destruct (Hcorr _ Htg6) as (gc & Hlc & Hpoints).
  destruct (Hq _ _ _ _ Equant) as (Hframe8 & Hmat).
  assert (Hne_tg : length (heap e5) <> tg) by lia.
  assert (Hne_lc : length (heap e5) <> lc).
  { destruct Hwhere as [-> | Hge]; [lia |].
    rewrite Hheap6, length_app in Hge. cbn in Hge. lia. }
  split; [exact Hbl6 |].
  exists gc. repeat split.
  - exact Hlc.
  - now apply Hmat.
  - apply Hframe8; [exact Hne_lc |]. now apply Hframe7.
  - now rewrite materialize_compare_points.
Qed.

(** C7: whenever the similarity analyzer is called, its first argument
    is the copy of the core runner's graph that was taken before the PTQ
    Runner and the weight quantizer ran, and still holds exactly what
    the core runner produced; its second argument is the graph in which
    the quantization parameters have been applied to the corrected
    values of every node; and both graphs have the same compare points.
    A run that asks for the analysis and returns called the analyzer
    once. *)
Theorem analyzer_compares_baseline_with_quantized (a : FacadeArgs)
    (e : Ext) r :
  core_runner_returns_graph svc ->
  ptq_runner_contract svc ->
  quantize_graph_weights_contract svc ->
  pytorch_post_training_quantization svc a e = r ->
  bypass (debug_config (core_config a)) = false ->
  (forall bl ql gb gq o,
      In (CAnalyzer bl ql gb gq, o) (trace r) ->
      exists pre post budget tg g0 cfg lc gc,
        trace r =
          pre ++
          [ (CCoreRunner budget, Returns (RCore tg (Some g0) cfg));
            (CDeepcopy tg, Returns (RGraph bl (Some g0)));
            (CPtqRunner tg, Returns (RGraph lc (Some gc)));
            (CQuantizeGraphWeights lc,
             Returns (RGraph ql (Some (materialize gc))));
            (CAnalyzer bl ql gb gq, o) ] ++
          post /\
        gb = Some g0 /\
        gq = Some (materialize gc) /\
        compare_points (materialize gc) = compare_points g0) /\
  (analyze_similarity (debug_config (core_config a)) = true ->
   (exists v, result r = Ok v) ->
   count_calls is_analyzer_call (trace r) = 1).
Proof.
  intros Hcore Hptq Hq Hr Hb. run_facade Hr; try discriminate.
  all: split;
    [ intros bl ql gb gq y Hin;
      exists (firstn 6 (trace r)), (skipn 11 (trace r));
      subst r; cbn [trace] in *; unfold graph_summary;
      cbn in Hin; trace_cases
    | subst r; cbn [result trace];
      intros Ha [v Hv]; try discriminate Ha; try discriminate Hv;
      reflexivity ].
  all: match goal with
       | Ec : core_runner _ _ _ _ _ _ _ _ _ = (Ok (?tg, _, _, _), ?e5),
         Ed : copy_deepcopy ?tg ?e5 = (Ok _, _),
         Ep : ptq_runner _ ?tg _ _ _ _ _ = (Ok _, _),
         Eq : quantize_graph_weights _ _ _ = (Ok _, _) |- _ =>
           destruct (Hcore _ _ _ _ _ _ _ _ _ _ _ _ _ Ec) as [g0 Hg0];
           destruct (baseline_survives _ _ _ _ _ _ _ _ _ _ _ _ _
                       Hptq Hq Hg0 Ed Ep Eq)
             as (Hbl6 & gc & Hlc & Hql & Hbl8 & Hpoints);
           rewrite Hg0, Hbl6, Hlc, Hql, Hbl8
       end.
  all: do 6 eexists; cbn; repeat split; try reflexivity; assumption.
Qed.

End Similarity.

(** * Further properties of the facade *)

Section RunOutcomes.
Context `{Host}.
Variable svc : Services.

(** X1: a callee that raises ends the run.  Its exception is the outcome
    of the run, every callee before it had returned, and nothing is
    called after it; and a run never ends with an exception that no
    callee raised. *)
Theorem callee_failure_ends_run (a : FacadeArgs) (e : Ext) r :
  pytorch_post_training_quantization svc a e = r ->
  (forall c x,
      In (c, Raises x) (trace r) ->
      result r = Raise x /\
      exists pre,
        trace r = pre ++ [(c, Raises x)] /\ forallb returned pre = true) /\
  (forall x,
      result r = Raise x ->
      exists c pre, trace r = pre ++ [(c, Raises x)]) /\
  ((exists v, result r = Ok v) -> forallb returned (trace r) = true).
Proof.
  intros Hr. run_facade Hr.
  all: split; [| split];
    [ intros c y Hin; split;
      [| exists (removelast (trace r)) ];
      subst r; cbn [result trace] in *; cbn in Hin; trace_cases;
      cbn; try split; reflexivity
    | intros y Hy; pose (whole := trace r);
      subst r; cbn [result trace] in *; try discriminate Hy;
      injection Hy as <-; eexists; exists (removelast whole);
      subst whole; cbn; reflexivity
    | intros [v Hv]; subst r; cbn [result trace] in *;
      try discriminate Hv; reflexivity ].
Qed.

End RunOutcomes.

Section CalleeUse.
Context `{Host}.
Variable svc : Services.

(** X2: [Logger.critical] is called in exactly one situation: bypass is
    off, mixed precision is enabled and the mixed-precision configuration
    is not a MixedPrecisionQuantizationConfig.  With mixed precision
    disabled the configuration object is never looked at. *)
Theorem critical_called_iff (a : FacadeArgs) (e : Ext) r msg :
  pytorch_post_training_quantization svc a e = r ->
  (mentions (CLoggerCritical msg) (trace r) <->
   bypass (debug_config (core_config a)) = false /\
   is_mixed_precision_enabled (core_config a) = true /\
   isinstance_MixedPrecisionQuantizationConfig
     (mixed_precision_config (core_config a)) = false /\
   msg = mixed_precision_type_message).
Proof.
  intros Hr. unfold mentions. run_facade Hr.
  all: subst r; cbn [trace]; split;
    [ intros [y Hin]; cbn in Hin; trace_cases; repeat split
    | intros (Hb & Hmp & Hty & ->); try discriminate;
      eexists; cbn; eauto ].
Qed.

(** X3: the weight quantizer and the analyzer are called only when
    similarity analysis is requested; and when the analyzer is called,
    its quantized argument is the graph [quantize_graph_weights] had just
    returned, content included. *)
Theorem similarity_steps_only_on_request (a : FacadeArgs) (e : Ext) r :
  pytorch_post_training_quantization svc a e = r ->
  (analyze_similarity (debug_config (core_config a)) = false ->
   count_calls is_similarity_step (trace r) = 0) /\
  (forall bl ql gb gq o,
      In (CAnalyzer bl ql gb gq, o) (trace r) ->
      analyze_similarity (debug_config (core_config a)) = true /\
      exists corrected,
        In (CQuantizeGraphWeights corrected, Returns (RGraph ql gq))
           (trace r)).
Proof.
  intros Hr. run_facade Hr.
  all: subst r; cbn [trace]; split;
    [ intros Ha; try discriminate Ha; reflexivity
    | intros bl ql gb gq y Hin; cbn in Hin; trace_cases ].
  all: split; [ reflexivity |].
  all: eexists; cbn; unfold graph_summary; eauto 20.
Qed.


End CalleeUse.

Section Interference.
Context `{Host}.
Variable svc : Services.

(** X5: the facade binds the bit-width configuration and the hessian
    info service that the core runner returns and reads neither.  A core
    runner that hands back different ones leads to the same outcome, the
    same final state and the same stages. *)
Theorem ignored_core_outputs_do_not_matter
    (f : MixedPrecision.BitwidthConfiguration ->
         MixedPrecision.BitwidthConfiguration)
    (g : HessianService -> HessianService) (a : FacadeArgs) (e : Ext) :
  result (pytorch_post_training_quantization (with_core_outputs svc f g) a e)
    = result (pytorch_post_training_quantization svc a e) /\
  final (pytorch_post_training_quantization (with_core_outputs svc f g) a e)
    = final (pytorch_post_training_quantization svc a e) /\
  stages
    (trace (pytorch_post_training_quantization (with_core_outputs svc f g)
              a e))
    = stages (trace (pytorch_post_training_quantization svc a e)).
Proof.
  remember (pytorch_post_training_quantization svc a e) as r eqn:Hr.
  remember (pytorch_post_training_quantization (with_core_outputs svc f g)
              a e) as r' eqn:Hr'.
  symmetry in Hr, Hr'. revert Hr'.
  unfold pytorch_post_training_quantization, set_pytorch_info,
    pytorch_post_training_quantization_body, call_init_tensorboard_writer,
    call_PytorchImplementation, call_load_target_platform_capabilities,
    call_AttachTpcToPytorch, call_attach, call_core_runner, call_deepcopy,
    call_ptq_runner, call_quantize_graph_weights,
    call_analyzer_model_quantization, call_get_exportable_pytorch_model,
    call_create_model_metadata, call_add_metadata, Logger_critical,
    bind, invoke, ret, set_fw_info, with_core_outputs.
  cbn [init_tensorboard_writer PytorchImplementation
       load_target_platform_capabilities AttachTpcToPytorch attach
       core_runner ptq_runner quantize_graph_weights
       analyzer_model_quantization get_exportable_pytorch_model
       create_model_metadata mctq_add_metadata].
  run_facade Hr.
  all: cbn iota beta; intros <-; subst r; repeat split.
Qed.

End Interference.

Section Wiring.
Context `{Host}.
Variable svc : Services.

(** X6: what the caller passes is what the callees get: the capability
    loader is called on the caller's argument (object or path), the
    capabilities attached to the framework are the ones the loader
    returned, and the core runner is given the caller's resource budget,
    absent or not. *)
Theorem caller_arguments_reach_callees (a : FacadeArgs) (e : Ext) r :
  pytorch_post_training_quantization svc a e = r ->
  (forall arg o,
      In (CLoadTargetPlatformCapabilities arg, o) (trace r) ->
      arg = target_platform_capabilities a) /\
  (forall t o,
      In (CAttach t, o) (trace r) ->
      In (CLoadTargetPlatformCapabilities (target_platform_capabilities a),
          Returns (RTpc t))
         (trace r)) /\
  (forall ru o,
      In (CCoreRunner ru, o) (trace r) ->
      ru = target_resource_utilization a).
Proof.
  intros Hr. run_facade Hr.
  all: subst r; cbn [trace]; repeat split.
  all: intros ? ? Hin; cbn in Hin; trace_cases; try reflexivity.
  all: cbn; eauto 20.
Qed.

(** X7: the graph the core runner returns is deep-copied in every run,
    whether or not similarity analysis was requested; the PTQ Runner is
    called on the core runner's graph itself and only once the copy
    exists; and the analyzer's baseline is that copy. *)
Theorem baseline_copy_always_taken (a : FacadeArgs) (e : Ext) r :
  pytorch_post_training_quantization svc a e = r ->
  (forall ru tg g cfg,
      In (CCoreRunner ru, Returns (RCore tg g cfg)) (trace r) ->
      mentions (CDeepcopy tg) (trace r)) /\
  (forall tg o,
      In (CPtqRunner tg, o) (trace r) ->
      exists ru g cfg copy copied,
        In (CCoreRunner ru, Returns (RCore tg g cfg)) (trace r) /\
        In (CDeepcopy tg, Returns (RGraph copy copied)) (trace r)) /\
  (forall bl ql gb gq o,
      In (CAnalyzer bl ql gb gq, o) (trace r) ->
      exists tg copied,
        In (CDeepcopy tg, Returns (RGraph bl copied)) (trace r)).
Proof.
  intros Hr. unfold mentions. run_facade Hr.
  all: subst r; cbn [trace]; repeat split.
  all: intros; cbn in *; trace_cases.
  all: unfold graph_summary; repeat eexists; cbn; eauto 20.
Qed.

(** X8: in a run without bypass that returns, the core runner and the
    PTQ Runner were given the caller's generator and configuration, and
    both were given the one tensorboard writer and the one framework
    implementation object created at the start; the analyzer, when
    requested, was given the same generator, writer and implementation. *)
Theorem stages_share_their_inputs (a : FacadeArgs) (e : Ext) r v :
  pytorch_post_training_quantization svc a e = r ->
  bypass (debug_config (core_config a)) = false ->
  result r = Ok v ->
  exists tb_w fw_impl fqc tg cfg h s corrected e0 e0' e1 e1' e4 e5 e6 e7,
    init_tensorboard_writer svc e0 = (Ok tb_w, e0') /\
    PytorchImplementation svc e1 = (Ok fw_impl, e1') /\
    core_runner svc (in_module a) (representative_data_gen a)
      (core_config a) fw_impl fqc (target_resource_utilization a) tb_w e4 =
      (Ok (tg, cfg, h, s), e5) /\
    ptq_runner svc tg (representative_data_gen a) (core_config a) fw_impl
      tb_w e6 = (Ok corrected, e7) /\
    (analyze_similarity (debug_config (core_config a)) = true ->
     exists bl ql e8 e9,
       analyzer_model_quantization svc (representative_data_gen a) tb_w
         bl ql fw_impl e8 = (Ok tt, e9)).
Proof.
  intros Hr Hb Hv. run_facade Hr; subst r; try discriminate.
  all: repeat match goal with u : unit |- _ => destruct u end.
  all: do 16 eexists; repeat split; try eassumption.
  all: intros Ha; try discriminate Ha; do 4 eexists; eassumption.
Qed.

End Wiring.

Section ModuleLevelOutcomes.
Context `{Host}.





End ModuleLevelOutcomes.

Section SetupAndMetadata.
Context `{Host}.
Variable svc : Services.

(** X11: everything the stages need is set up first.  If the
    configuration check or one of the setup calls (tensorboard writer,
    framework implementation, loading the capability spec, attaching it)
    raises, no stage has run: the run ends with that error before the
    core runner is called. *)
Theorem setup_failure_precedes_stages (a : FacadeArgs) (e : Ext) r :
  pytorch_post_training_quantization svc a e = r ->
  forall c x,
    is_setup_call c = true ->
    In (c, Raises x) (trace r) ->
    result r = Raise x /\ stages (trace r) = [].
Proof.
  intros Hr. run_facade Hr.
  all: subst r; cbn [result trace]; intros c y Hc Hin; cbn in Hin;
    trace_cases; try discriminate Hc.
  all: split; reflexivity.
Qed.

(** X12: metadata is only ever added to the model the Exporter returned:
    [add_metadata] is called, if at all, after the Exporter and
    [create_model_metadata] have returned, and on the Exporter's model. *)
Theorem metadata_added_to_exported_model (a : FacadeArgs) (e : Ext) r :
  pytorch_post_training_quantization svc a e = r ->
  forall m md o,
    In (CAddMetadata m md, o) (trace r) ->
    In (CCreateModelMetadata, Returns RNone) (trace r) /\
    exists g graph ui,
      In (CExporter g graph, Returns (RExport m ui)) (trace r).
Proof.
  intros Hr. run_facade Hr.
  all: subst r; cbn [trace]; intros m md y Hin; cbn in Hin; trace_cases.
  all: split; [ cbn; eauto 20 | do 3 eexists; cbn; eauto 20 ].
Qed.

End SetupAndMetadata.

(** ** The concrete instance meets the contracts *)

Module DemoFacts.
Import Demo.
#[local] Existing Instance demo_host.

Lemma core_runner_returns_graph_holds : core_runner_returns_graph services.
Proof.
  intros m d c f q r t e tg cfg h s e'.
  cbn [core_runner services]. unfold core_runner_model, prepare_graph.
  destruct d as [| d]; [discriminate |].
  destruct (is_mixed_precision_enabled c), r as [ru |];
    try destruct (MixedPrecision.search _ _); try discriminate.
  all: intros [= <- _ _ _ <-]; unfold draw, with_heap; cbn [heap].
  all: rewrite list_lookup_middle by reflexivity; eexists; reflexivity.
Qed.

Lemma correct_graph_compare_points (g : Graph) :
  compare_points (correct_graph g) = compare_points g.
Proof.
  unfold compare_points, correct_graph. cbn [nodes].
  rewrite List.map_map. reflexivity.
Qed.

Lemma ptq_runner_contract_holds : ptq_runner_contract services.
Proof.
  intros tg d c f t e l e'. cbn [ptq_runner services].
  intros [= <- <-]. unfold draw, with_heap. cbn [heap]. repeat split.
  - intros k g Hne Hk. unfold draw, with_heap. cbn [heap].
    now rewrite list_lookup_alter_ne.
  - now left.
  - intros g Hg. exists (correct_graph g). split.
    + now rewrite list_lookup_alter_eq, Hg.
    + apply correct_graph_compare_points.
Qed.

Lemma quantize_graph_weights_contract_holds :
  quantize_graph_weights_contract services.
Proof.
  intros l e l' e'. cbn [quantize_graph_weights services].
  destruct (heap e !! l) as [g |] eqn:Hl; [| discriminate].
  intros [= <- <-]. unfold with_heap. cbn [heap]. split.
  - intros k g' _ Hk. unfold with_heap. cbn [heap].
    now apply lookup_app_l_Some.
  - intros g' [= <-]. now apply list_lookup_middle.
Qed.

Lemma exporter_produces_user_information_holds :
  exporter_produces_user_information services.
Proof. intros g e m ui e'. cbn. intros [= _ <- _]. discriminate. Qed.

Lemma attach_keeps_tpc_holds : attach_keeps_tpc services.
Proof. intros a t o e q e'. cbn. now intros [= <- _]. Qed.

Lemma unconditional_imports_need_no_torch m :
  In m unconditional_imports -> importable env_without_torch m = true.
Proof.
  intros Hin. cbn in Hin.
  repeat (destruct Hin as [<- | Hin]; [reflexivity |]). destruct Hin.
Qed.

End DemoFacts.

(** ** The claims on the concrete instance *)

#[local] Existing Instance Demo.demo_host.

Lemma bypass_returns_original_module_witness :
  bypass (debug_config (core_config Demo.bypass_args)) = true /\
  result Demo.bypass_run = Ok ("float_model", None) /\
  batches_consumed (final Demo.bypass_run) = 0 /\
  heap (final Demo.bypass_run) = [] /\
  trace Demo.bypass_run = [(CSetFwInfo, Returns RNone)] /\
  stages (trace Demo.bypass_run) = [].
Proof.
  split; [reflexivity |].
  exact (bypass_returns_original_module Demo.services Demo.bypass_args
           Demo.empty_world eq_refl).
Defined.

Lemma bypass_precedes_validation_witness :
  bypass (debug_config (core_config Demo.bypass_args)) = true /\
  is_mixed_precision_enabled (core_config Demo.bypass_args) = true /\
  isinstance_MixedPrecisionQuantizationConfig
    (mixed_precision_config (core_config Demo.bypass_args)) = false /\
  result Demo.bypass_run = Ok ("float_model", None) /\
  forall msg, ~ mentions (CLoggerCritical msg) (trace Demo.bypass_run).
Proof.
  do 3 (split; [reflexivity |]).
  exact (bypass_precedes_validation Demo.services Demo.bypass_args
           Demo.empty_world eq_refl eq_refl eq_refl).
Defined.

(** C3 as stated fails: with bypass set, a run with mixed precision
    enabled and a dict as mixed-precision configuration does not abort; it
    returns the original module. *)
Lemma wrong_type_not_fatal_under_bypass :
  is_mixed_precision_enabled (core_config Demo.bypass_args) = true /\
  isinstance_MixedPrecisionQuantizationConfig
    (mixed_precision_config (core_config Demo.bypass_args)) = false /\
  result Demo.bypass_run = Ok ("float_model", None) /\
  forall x, result Demo.bypass_run <> Raise x.
Proof. repeat split; discriminate. Qed.

Lemma wrong_mixed_precision_type_is_fatal_witness :
  bypass (debug_config (core_config Demo.wrong_type_args)) = false /\
  is_mixed_precision_enabled (core_config Demo.wrong_type_args) = true /\
  isinstance_MixedPrecisionQuantizationConfig
    (mixed_precision_config (core_config Demo.wrong_type_args)) = false /\
  result Demo.wrong_type_run =
    Raise (Critical mixed_precision_type_message) /\
  trace Demo.wrong_type_run =
    [ (CSetFwInfo, Returns RNone);
      (CLoggerCritical mixed_precision_type_message,
       Raises (Critical mixed_precision_type_message)) ] /\
  batches_consumed (final Demo.wrong_type_run) = 0 /\
  heap (final Demo.wrong_type_run) = [].
Proof.
  do 3 (split; [reflexivity |]).
  exact (wrong_mixed_precision_type_is_fatal Demo.services
           Demo.wrong_type_args Demo.empty_world eq_refl eq_refl eq_refl).
Defined.

(** C2 as stated fails: a run without bypass that aborts at the
    configuration check executes no stage at all, so the Exporter is not
    invoked once but never. *)
Lemma exporter_not_invoked_when_run_aborts :
  bypass (debug_config (core_config Demo.wrong_type_args)) = false /\
  stages (trace Demo.wrong_type_run) = [] /\
  stages (trace Demo.wrong_type_run) <>
    stage_order (core_config Demo.wrong_type_args) /\
  invocations Exporter (trace Demo.wrong_type_run) <> 1.
Proof. repeat split; discriminate. Qed.

Lemma stages_run_in_order_witness :
  bypass (debug_config (core_config Demo.full_args)) = false /\
  (exists rest,
      stage_order (core_config Demo.full_args) =
        stages (trace Demo.full_run) ++ rest /\
      ((exists v, result Demo.full_run = Ok v) -> rest = [])) /\
  invocations Exporter (trace Demo.full_run) <= 1 /\
  ((exists v, result Demo.full_run = Ok v) ->
   invocations Exporter (trace Demo.full_run) = 1).
Proof.
  split; [reflexivity |].
  exact (stages_run_in_order Demo.services Demo.full_args Demo.empty_world
           Demo.full_run eq_refl eq_refl).
Defined.

(** C4 as stated fails: when the analyzer raises, the run ends with that
    exception and the corrected graph is never exported. *)
Lemma analyzer_failure_aborts_run :
  analyze_similarity (debug_config (core_config Demo.analysis_args)) = true /\
  count_calls is_analyzer_call (trace Demo.failing_analysis_run) = 1 /\
  result Demo.failing_analysis_run = Raise (PyException "RuntimeError") /\
  invocations Exporter (trace Demo.failing_analysis_run) = 0.
Proof. vm_compute. repeat split. Qed.

Lemma analyzer_failure_propagates_witness :
  bypass (debug_config (core_config Demo.analysis_args)) = false /\
  (forall c x,
      is_similarity_step c = true ->
      In (c, Raises x) (trace Demo.failing_analysis_run) ->
      result Demo.failing_analysis_run = Raise x /\
      invocations Exporter (trace Demo.failing_analysis_run) = 0) /\
  (forall c ret,
      is_analyzer_call c = true ->
      In (c, Returns ret) (trace Demo.failing_analysis_run) ->
      exists tg corrected g exported o,
        In (CPtqRunner tg, Returns (RGraph corrected g))
           (trace Demo.failing_analysis_run) /\
        In (CExporter corrected exported, o)
           (trace Demo.failing_analysis_run) /\
        invocations Exporter (trace Demo.failing_analysis_run) = 1).
Proof.
  split; [reflexivity |].
  exact (analyzer_failure_propagates Demo.services_failing_analyzer
           Demo.analysis_args Demo.empty_world Demo.failing_analysis_run
           eq_refl eq_refl).
Defined.

Lemma budget_respected_or_infeasible_witness :
  core_runner Demo.services = core_runner_model Demo.prepare_graph /\
  is_mixed_precision_enabled (core_config Demo.full_args) = true /\
  target_resource_utilization Demo.full_args = Some Demo.budget /\
  (forall c tg g cfg,
      In (c, Returns (RCore tg g cfg)) (trace Demo.full_run) ->
      (MixedPrecision.total_cost cfg <=
       MixedPrecision.max_utilization Demo.budget)%N) /\
  (forall ru x,
      In (CCoreRunner ru, Raises x) (trace Demo.full_run) ->
      result Demo.full_run = Raise x /\
      invocations Exporter (trace Demo.full_run) = 0 /\
      (x = InfeasibleBudget \/ preparation_raises Demo.prepare_graph x)).
Proof.
  do 3 (split; [reflexivity |]).
  exact (budget_respected_or_infeasible Demo.services Demo.prepare_graph
           Demo.full_args Demo.empty_world Demo.full_run Demo.budget
           eq_refl eq_refl eq_refl eq_refl).
Defined.

Lemma torch_missing_fails_on_use_witness :
  importable Demo.env_without_torch "torch" = false /\
  import_quantization_facade Demo.env_without_torch
    (Raise (ImportError "torch")) = Ok StubEntry /\
  forall (svc : Services) (a : FacadeArgs) (e : Ext),
    call_entry_point svc StubEntry a e =
      {| result := Raise (Critical torch_missing_message);
         final := e;
         trace := [ (CLoggerCritical torch_missing_message,
                     Raises (Critical torch_missing_message)) ] |}.
Proof.
  split; [reflexivity |].
  exact (torch_missing_fails_on_use Demo.env_without_torch
           (Raise (ImportError "torch")) eq_refl
           DemoFacts.unconditional_imports_need_no_torch).
Defined.

Lemma analyzer_compares_baseline_with_quantized_witness :
  bypass (debug_config (core_config Demo.full_args)) = false /\
  (forall bl ql gb gq o,
      In (CAnalyzer bl ql gb gq, o) (trace Demo.full_run) ->
      exists pre post budget tg g0 cfg lc gc,
        trace Demo.full_run =
          pre ++
          [ (CCoreRunner budget, Returns (RCore tg (Some g0) cfg));
            (CDeepcopy tg, Returns (RGraph bl (Some g0)));
            (CPtqRunner tg, Returns (RGraph lc (Some gc)));
            (CQuantizeGraphWeights lc,
             Returns (RGraph ql (Some (materialize gc))));
            (CAnalyzer bl ql gb gq, o) ] ++
          post /\
        gb = Some g0 /\
        gq = Some (materialize gc) /\
        compare_points (materialize gc) = compare_points g0) /\
  (analyze_similarity (debug_config (core_config Demo.full_args)) = true ->
   (exists v, result Demo.full_run = Ok v) ->
   count_calls is_analyzer_call (trace Demo.full_run) = 1).
Proof.
  split; [reflexivity |].
  exact (analyzer_compares_baseline_with_quantized Demo.services
           Demo.full_args Demo.empty_world Demo.full_run
           DemoFacts.core_runner_returns_graph_holds
           DemoFacts.ptq_runner_contract_holds
           DemoFacts.quantize_graph_weights_contract_holds
           eq_refl eq_refl).
Defined.

Lemma metadata_attached_iff_requested_witness :
  bypass (debug_config (core_config Demo.full_args)) = false /\
  (forall c o,
      is_add_metadata_call c = true -> In (c, o) (trace Demo.full_run) ->
      exists t,
        In (CLoadTargetPlatformCapabilities
              (target_platform_capabilities Demo.full_args),
            Returns (RTpc t))
           (trace Demo.full_run) /\
        add_metadata t = true) /\
  (forall m ui,
      result Demo.full_run = Ok (m, ui) ->
      exists t g graph m0,
        In (CLoadTargetPlatformCapabilities
              (target_platform_capabilities Demo.full_args),
            Returns (RTpc t))
           (trace Demo.full_run) /\
        In (CExporter g graph, Returns (RExport m0 ui))
           (trace Demo.full_run) /\
        if add_metadata t
        then exists md,
               In (CAddMetadata m0 md, Returns (RModule m))
                  (trace Demo.full_run)
        else m = m0 /\
             count_calls is_add_metadata_call (trace Demo.full_run) = 0).
Proof.
  split; [reflexivity |].
  exact (metadata_attached_iff_requested Demo.services Demo.full_args
           Demo.empty_world Demo.full_run DemoFacts.attach_keeps_tpc_holds
           eq_refl eq_refl).
Defined.

Lemma user_information_none_iff_bypass_witness :
  result Demo.full_run =
    Ok ("quantized_model+exhaustive", Some "user_info") /\
  (Some "user_info" = None <->
   bypass (debug_config (core_config Demo.full_args)) = true) /\
  (bypass (debug_config (core_config Demo.full_args)) = false ->
   exists g graph m0 u,
     Some "user_info" = Some u /\
     In (CExporter g graph, Returns (RExport m0 (Some u)))
        (trace Demo.full_run) /\
     ("quantized_model+exhaustive" = m0 \/
      exists md,
        In (CAddMetadata m0 md, Returns (RModule "quantized_model+exhaustive"))
           (trace Demo.full_run))).
Proof.
  split; [reflexivity |].
  exact (user_information_none_iff_bypass Demo.services Demo.full_args
           Demo.empty_world Demo.full_run "quantized_model+exhaustive"
           (Some "user_info")
           DemoFacts.exporter_produces_user_information_holds
           eq_refl eq_refl).
Defined.

(** ** The concrete instance at work *)

Example search_picks_least_sensitive :
  MixedPrecision.search 12 Demo.node_candidates =
    Ok [ {| MixedPrecision.bitwidth := 8; MixedPrecision.cost := 8;
            MixedPrecision.sensitivity := 1 |};
         {| MixedPrecision.bitwidth := 4; MixedPrecision.cost := 4;
            MixedPrecision.sensitivity := 3 |} ].
Proof. reflexivity. Qed.

Example search_reports_infeasible :
  MixedPrecision.search 5 Demo.node_candidates = Raise InfeasibleBudget.
Proof. reflexivity. Qed.

(** A budget nothing fits ends the run with the infeasibility error
    after calibration and before any export. *)
Example infeasible_budget_nothing_exported :
  result Demo.infeasible_run = Raise InfeasibleBudget /\
  stages (trace Demo.infeasible_run) = [CoreRunner] /\
  invocations Exporter (trace Demo.infeasible_run) = 0.
Proof. repeat split. Qed.

(** The PTQ runner of the instance corrects the graph it is given in
    place; the analyzer still sees the weights the core runner left,
    next to the quantized corrected ones. *)
Example analyzer_sees_uncorrected_baseline :
  heap (final Demo.full_run) !! 0 =
    Some (Demo.correct_graph Demo.float_graph) /\
  In (CAnalyzer 1 2 (Some Demo.float_graph)
        (Some (materialize (Demo.correct_graph Demo.float_graph))),
      Returns RNone)
     (trace Demo.full_run) /\
  map weights (nodes Demo.float_graph) = [37%N; 5%N] /\
  map weights (nodes (materialize (Demo.correct_graph Demo.float_graph))) =
    [32%N; 6%N].
Proof. vm_compute. intuition. Qed.

Example full_run_draws_three_passes :
  batches_consumed (final Demo.full_run) = 30.
Proof. reflexivity. Qed.

(** The imports behind the torch guard are the ones that fail without
    torch. *)
Example guarded_imports_need_torch :
  import_all Demo.env_without_torch torch_guarded_imports =
    Raise (ImportError
             "model_compression_toolkit.core.pytorch.default_framework_info").
Proof. reflexivity. Qed.

(** ** The further properties on the concrete instance *)

Lemma callee_failure_ends_run_witness :
  (forall c x,
      In (c, Raises x) (trace Demo.failing_analysis_run) ->
      result Demo.failing_analysis_run = Raise x /\
      exists pre,
        trace Demo.failing_analysis_run = pre ++ [(c, Raises x)] /\
        forallb returned pre = true) /\
  (forall x,
      result Demo.failing_analysis_run = Raise x ->
      exists c pre, trace Demo.failing_analysis_run = pre ++ [(c, Raises x)]) /\
  ((exists v, result Demo.failing_analysis_run = Ok v) ->
   forallb returned (trace Demo.failing_analysis_run) = true).
Proof.
  exact (callee_failure_ends_run Demo.services_failing_analyzer
           Demo.analysis_args Demo.empty_world Demo.failing_analysis_run
           eq_refl).
Defined.

Lemma critical_called_iff_witness :
  mentions (CLoggerCritical mixed_precision_type_message)
    (trace Demo.wrong_type_run) <->
  bypass (debug_config (core_config Demo.wrong_type_args)) = false /\
  is_mixed_precision_enabled (core_config Demo.wrong_type_args) = true /\
  isinstance_MixedPrecisionQuantizationConfig
    (mixed_precision_config (core_config Demo.wrong_type_args)) = false /\
  mixed_precision_type_message = mixed_precision_type_message.
Proof.
  exact (critical_called_iff Demo.services Demo.wrong_type_args
           Demo.empty_world Demo.wrong_type_run
           mixed_precision_type_message eq_refl).
Defined.

Lemma similarity_steps_only_on_request_witness :
  analyze_similarity (debug_config (core_config Demo.plain_args)) = false /\
  count_calls is_similarity_step (trace Demo.plain_run) = 0.
Proof.
  split; [reflexivity |].
  exact (proj1 (similarity_steps_only_on_request Demo.services
                  Demo.plain_args Demo.empty_world Demo.plain_run eq_refl)
               eq_refl).
Defined.


Lemma caller_arguments_reach_callees_witness :
  (forall arg o,
      In (CLoadTargetPlatformCapabilities arg, o) (trace Demo.full_run) ->
      arg = TpcObject (Demo.platform true)) /\
  (forall t o,
      In (CAttach t, o) (trace Demo.full_run) ->
      In (CLoadTargetPlatformCapabilities (TpcObject (Demo.platform true)),
          Returns (RTpc t))
         (trace Demo.full_run)) /\
  (forall ru o,
      In (CCoreRunner ru, o) (trace Demo.full_run) ->
      ru = Some Demo.budget).
Proof.
  exact (caller_arguments_reach_callees Demo.services Demo.full_args
           Demo.empty_world Demo.full_run eq_refl).
Defined.

Lemma baseline_copy_always_taken_witness :
  analyze_similarity (debug_config (core_config Demo.plain_args)) = false /\
  forall ru tg g cfg,
    In (CCoreRunner ru, Returns (RCore tg g cfg)) (trace Demo.plain_run) ->
    mentions (CDeepcopy tg) (trace Demo.plain_run).
Proof.
  split; [reflexivity |].
  exact (proj1 (baseline_copy_always_taken Demo.services Demo.plain_args
                  Demo.empty_world Demo.plain_run eq_refl)).
Defined.

Lemma stages_share_their_inputs_witness :
  bypass (debug_config (core_config Demo.full_args)) = false /\
  result Demo.full_run =
    Ok ("quantized_model+exhaustive", Some "user_info") /\
  exists tb_w fw_impl fqc tg cfg h s corrected e0 e0' e1 e1' e4 e5 e6 e7,
    init_tensorboard_writer Demo.services e0 = (Ok tb_w, e0') /\
    PytorchImplementation Demo.services e1 = (Ok fw_impl, e1') /\
    core_runner Demo.services "float_model" 10
      (core_config Demo.full_args) fw_impl fqc (Some Demo.budget) tb_w e4 =
      (Ok (tg, cfg, h, s), e5) /\
    ptq_runner Demo.services tg 10 (core_config Demo.full_args) fw_impl
      tb_w e6 = (Ok corrected, e7) /\
    (analyze_similarity (debug_config (core_config Demo.full_args)) = true ->
     exists bl ql e8 e9,
       analyzer_model_quantization Demo.services 10 tb_w bl ql fw_impl e8 =
         (Ok tt, e9)).
Proof.
  do 2 (split; [reflexivity |]).
  exact (stages_share_their_inputs Demo.services Demo.full_args
           Demo.empty_world Demo.full_run
           ("quantized_model+exhaustive", Some "user_info")
           eq_refl eq_refl eq_refl).
Defined.


Example import_with_everything_installed :
  import_quantization_facade Demo.env_with_torch (Ok (Demo.platform false)) =
    Ok (TorchEntry (Demo.platform false)).
Proof. reflexivity. Qed.

(** A capability spec given as a path the loader cannot read. *)
Lemma setup_failure_precedes_stages_witness :
  is_setup_call
    (CLoadTargetPlatformCapabilities (TpcPath "missing.json")) = true /\
  forall c x,
    is_setup_call c = true ->
    In (c, Raises x) (trace Demo.missing_tpc_run) ->
    result Demo.missing_tpc_run = Raise x /\
    stages (trace Demo.missing_tpc_run) = [].
Proof.
  split; [reflexivity |].
  exact (setup_failure_precedes_stages Demo.services Demo.missing_tpc_args
           Demo.empty_world Demo.missing_tpc_run eq_refl).
Defined.

Example missing_capability_file_is_fatal :
  result Demo.missing_tpc_run = Raise (PyException "FileNotFoundError") /\
  batches_consumed (final Demo.missing_tpc_run) = 0.
Proof. split; reflexivity. Qed.

Lemma metadata_added_to_exported_model_witness :
  In (CAddMetadata "quantized_model" "exhaustive",
      Returns (RModule "quantized_model+exhaustive"))
     (trace Demo.full_run) /\
  In (CCreateModelMetadata, Returns RNone) (trace Demo.full_run) /\
  exists g graph ui,
    In (CExporter g graph, Returns (RExport "quantized_model" ui))
       (trace Demo.full_run).
Proof.
  assert (Hin : In (CAddMetadata "quantized_model" "exhaustive",
                    Returns (RModule "quantized_model+exhaustive"))
                   (trace Demo.full_run)).
  { vm_compute. auto 20. }
  split; [exact Hin |].
  exact (metadata_added_to_exported_model Demo.services Demo.full_args
           Demo.empty_world Demo.full_run eq_refl _ _ _ Hin).
Defined.
